(** * A/B testing case study (Audacity.py): bootstrap significance tests

    A shallow embedding of the analysis cells of [Audacity.py].  The script
    loads an event table with pandas, computes a metric per group, bootstraps
    the difference of the metric, simulates a null distribution with numpy and
    reads off a one-sided p-value.

    Numbers.  pandas and numpy compute on IEEE-754 doubles.  They are modelled
    by [f64]: a finite value is an exact rational, and NaN and the two
    infinities are kept with their IEEE behaviour (every comparison with NaN
    is false, 0/0 is NaN, ...).  Rounding, overflow and the sign of zero are
    not modelled.  Finite results are kept in lowest terms ([Qred]) so that
    Leibniz equality can be used on them.

    Effects.  The metric cells can raise Python's [ZeroDivisionError] (an
    [int / int] with a zero divisor); [np.random.normal] raises [ValueError]
    on a negative scale and a positional [take] raises [IndexError] out of
    range.  The global numpy random state is threaded explicitly. *)

From Stdlib Require Import List String ZArith QArith Qreduction Qcanon Bool Lia Permutation Sorted OrdersEx.
Import ListNotations.

Local Open Scope Q_scope.

(** ** Doubles *)

Inductive f64 : Type :=
| NaN
| NInf
| Fin (q : Q)
| PInf.

Definition fin (q : Q) : f64 := Fin (Qred q).

Definition of_nat (n : nat) : f64 := Fin (inject_Z (Z.of_nat n)).

Definition of_bool (b : bool) : f64 := if b then Fin 1 else Fin 0.

Definition fadd (x y : f64) : f64 :=
  match x, y with
  | NaN, _ | _, NaN => NaN
  | PInf, NInf | NInf, PInf => NaN
  | PInf, _ | _, PInf => PInf
  | NInf, _ | _, NInf => NInf
  | Fin a, Fin b => fin (a + b)
  end.

Definition fsub (x y : f64) : f64 :=
  match x, y with
  | NaN, _ | _, NaN => NaN
  | PInf, PInf | NInf, NInf => NaN
  | PInf, _ | _, NInf => PInf
  | NInf, _ | _, PInf => NInf
  | Fin a, Fin b => fin (a - b)
  end.

Definition inf_signed (positive : bool) : f64 := if positive then PInf else NInf.

Definition fmul (x y : f64) : f64 :=
  match x, y with
  | NaN, _ | _, NaN => NaN
  | Fin a, Fin b => fin (a * b)
  | Fin a, PInf | PInf, Fin a =>
      match a ?= 0 with Gt => PInf | Lt => NInf | Eq => NaN end
  | Fin a, NInf | NInf, Fin a =>
      match a ?= 0 with Gt => NInf | Lt => PInf | Eq => NaN end
  | PInf, PInf | NInf, NInf => PInf
  | PInf, NInf | NInf, PInf => NInf
  end.

(** numpy's [true_divide] on doubles: a zero divisor gives NaN or an infinity
    (with a warning), never an exception. *)
Definition fdiv (x y : f64) : f64 :=
  match x, y with
  | NaN, _ | _, NaN => NaN
  | Fin a, Fin b =>
      if Qeq_bool b 0
      then match a ?= 0 with Eq => NaN | Gt => PInf | Lt => NInf end
      else fin (a / b)
  | Fin _, PInf | Fin _, NInf => Fin 0
  | PInf, Fin b => inf_signed (Qle_bool 0 b)
  | NInf, Fin b => inf_signed (negb (Qle_bool 0 b))
  | PInf, PInf | PInf, NInf | NInf, PInf | NInf, NInf => NaN
  end.

Definition flt (x y : f64) : bool :=
  match x, y with
  | NaN, _ | _, NaN => false
  | _, NInf => false
  | NInf, _ => true
  | PInf, _ => false
  | Fin _, PInf => true
  | Fin a, Fin b => match a ?= b with Lt => true | _ => false end
  end.

(** [x > y] *)
Definition fgt (x y : f64) : bool := flt y x.

Definition isnan (x : f64) : bool :=
  match x with NaN => true | _ => false end.

(** ** Exceptions *)

Inductive exn : Type :=
| ZeroDivisionError
| ValueError
| IndexError.

Inductive outcome (A : Type) : Type :=
| Ok (a : A)
| Raise (e : exn).

Arguments Ok {A} a.
Arguments Raise {A} e.

Definition obind {A B : Type} (m : outcome A) (k : A -> outcome B) : outcome B :=
  match m with
  | Ok a => k a
  | Raise e => Raise e
  end.

(** Python's [a / b] on two [int]s (the results of [nunique()]). *)
Definition py_truediv (a b : nat) : outcome f64 :=
  match b with
  | O => Raise ZeroDivisionError
  | S _ => Ok (fin (Z.of_nat a # Pos.of_nat b))
  end.

(** ** The event table *)

(** One row of the CSV files.  [homepage_actions.csv] and
    [course_page_actions.csv] have [timestamp,id,group,action] (the second one
    also [duration]); [classroom_actions.csv] has
    [timestamp,id,group,total_days,completed].  A numeric cell that is empty
    is NaN, as pandas reads it. *)
Record Row : Type := mkRow {
  timestamp : string;
  id : Z;
  group : string;
  action : string;
  duration : f64;
  total_days : f64;
  completed : bool
}.

Definition DataFrame : Type := list Row.

(** [df.query('group == "g"')] and [df.query('action == "a"')] *)
Definition query (p : Row -> bool) (df : DataFrame) : DataFrame := filter p df.

Definition group_is (g : string) (r : Row) : bool := String.eqb (group r) g.
Definition action_is (a : string) (r : Row) : bool := String.eqb (action r) a.

(** [Series.nunique()] on the [id] column *)
Definition nunique (ids : list Z) : nat := List.length (nodup Z.eq_dec ids).

(** ** Reductions of pandas and numpy *)

Definition fsum (xs : list f64) : f64 := fold_left fadd xs (Fin 0).

(** [ndarray.mean()]: the sum over the size; on an empty array 0.0/0 = NaN. *)
Definition np_mean (xs : list f64) : f64 := fdiv (fsum xs) (of_nat (List.length xs)).

(** [Series.mean()] with the default [skipna=True]: NaN cells are left out,
    and a series with no cell left has mean NaN. *)
Definition series_mean (xs : list f64) : f64 :=
  let ys := filter (fun x => negb (isnan x)) xs in
  match ys with
  | [] => NaN
  | _ :: _ => fdiv (fsum ys) (of_nat (List.length ys))
  end.

(** ** Metrics (cells 6-7, 17-18, 24, 32, 37-38) *)

(** [g_df = df.query('group == g')];
    [g_df.query('action == target').id.nunique() / g_df.query('action == baseline').id.nunique()] *)
Definition ctr (target baseline : string) (df : DataFrame) (g : string) : outcome f64 :=
  let g_df := query (group_is g) df in
  py_truediv (nunique (map id (query (action_is target) g_df)))
             (nunique (map id (query (action_is baseline) g_df))).

(** [df.query('group == g')[field].mean()] *)
Definition field_mean (field : Row -> f64) (df : DataFrame) (g : string) : outcome f64 :=
  Ok (series_mean (map field (query (group_is g) df))).

(** [df.query('group == g').completed.mean()]; a boolean column has no NaN. *)
Definition completed_mean (df : DataFrame) (g : string) : outcome f64 :=
  Ok (series_mean (map (fun r => of_bool (completed r)) (query (group_is g) df))).

Definition control_ctr (df : DataFrame) : outcome f64 := ctr "click" "view" df "control".
Definition experiment_ctr (df : DataFrame) : outcome f64 := ctr "click" "view" df "experiment".

(** ** The p-value (cells 11, 22, 28, 36, 42) *)

(** [(null_vals > obs_diff).mean()]: the comparison gives a boolean array,
    and its mean is taken on the booleans read as 1.0 and 0.0. *)
Definition p_value (null_vals : list f64) (obs_diff : f64) : f64 :=
  np_mean (map of_bool (map (fun v => fgt v obs_diff) null_vals)).

Record TestResult : Type := mkTestResult {
  observed_difference : f64;
  result_p_value : f64;
  alpha : f64;
  reject_null : bool
}.

(** Modelled from the spec: the record [TestResult] and the verdict
    [reject_null = p_value < alpha] of [SignificanceTester.test].  The script
    stops at the p-value and gives its verdict in prose; the p-value is the
    script's [p_value], which checks nothing on its arguments. *)
Definition significance_test (obs_diff : f64) (null_vals : list f64) (a : f64)
  : outcome TestResult :=
  let p := p_value null_vals obs_diff in
  Ok {| observed_difference := obs_diff;
        result_p_value := p;
        alpha := a;
        reject_null := flt p a |}.

(** Modelled from the spec: [MultipleComparisonCorrector.correct] under the
    Bonferroni policy.  The script only prints the four p-values (cell 43) and
    names the corrected threshold 0.05/4 in prose. *)
Definition bonferroni_alpha (familyAlpha : f64) (k : nat) : f64 :=
  fdiv familyAlpha (of_nat k).

Definition correct (results : list TestResult) (familyAlpha : f64) : list TestResult :=
  let adjustedAlpha := bonferroni_alpha familyAlpha (List.length results) in
  map (fun r => {| observed_difference := observed_difference r;
                   result_p_value := result_p_value r;
                   alpha := adjustedAlpha;
                   reject_null := flt (result_p_value r) adjustedAlpha |})
      results.

(** ** What the spec asks of the metrics *)

(** [uniqueUsers(group, action)]: distinct user ids among the rows of the
    group that carry the action. *)
Definition uniqueUsers (df : DataFrame) (g a : string) : nat :=
  List.length (nodup Z.eq_dec (map id (filter (fun r => group_is g r && action_is a r) df))).



Definition count_true (bs : list bool) : nat := List.length (filter (fun b => b) bs).


(** ** numpy's random state *)

(** The primitives of numpy the script relies on and that are not modelled
    further: the global [RandomState] ([np.random.seed], one bounded integer
    draw, one standard normal draw) and the square root of [ndarray.std]. *)
Class Numpy : Type := {
  rng : Type;
  seed : Z -> rng;
  randint : nat -> rng -> nat * rng;
  standard_normal : rng -> f64 * rng;
  np_sqrt : f64 -> f64
}.



Section Cells.

Context {N : Numpy}.

(** A cell runs on the global random state and may raise. *)
Definition M (A : Type) : Type := rng -> outcome (A * rng).

Definition ret {A : Type} (a : A) : M A := fun s => Ok (a, s).

Definition bind {A B : Type} (m : M A) (k : A -> M B) : M B :=
  fun s =>
    match m s with
    | Ok (a, s') => k a s'
    | Raise e => Raise e
    end.

Definition lift {A : Type} (o : outcome A) : M A :=
  fun s =>
    match o with
    | Ok a => Ok (a, s)
    | Raise e => Raise e
    end.

Definition draw {A : Type} (f : rng -> A * rng) : M A := fun s => Ok (f s).

Local Notation "x <- m ;; k" := (bind m (fun x => k))
  (at level 61, m at next level, right associativity).

(** [randint(0, bound, size=k)] *)
Fixpoint randints (bound k : nat) (s : rng) : list nat * rng :=
  match k with
  | O => ([], s)
  | S k' =>
      let (i, s1) := randint bound s in
      let (rest, s2) := randints bound k' s1 in
      (i :: rest, s2)
  end.

(** [df.take(idx)] *)
Fixpoint take (df : DataFrame) (idx : list nat) : outcome DataFrame :=
  match idx with
  | [] => Ok []
  | i :: rest =>
      match nth_error df i with
      | None => Raise IndexError
      | Some r => obind (take df rest) (fun rows => Ok (r :: rows))
      end
  end.

(** [df.sample(df.shape[0], replace=True)]: as many positions as the table
    has rows, drawn from the global state, then the rows at these positions. *)
Definition df_sample (df : DataFrame) : M DataFrame :=
  idx <- draw (randints (List.length df) (List.length df)) ;;
  lift (take df idx).


(** The body of the bootstrap loop after the draw: the metric of the control
    rows, then of the experiment rows, and their difference. *)
Definition stat_diff (stat : DataFrame -> string -> outcome f64) (b_sample : DataFrame)
  : outcome f64 :=
  obind (stat b_sample "control"%string) (fun control_stat =>
  obind (stat b_sample "experiment"%string) (fun experiment_stat =>
  Ok (fsub experiment_stat control_stat))).

(** [for _ in range(n): ...; diffs.append(experiment - control)] *)
Fixpoint bootstrap_loop (stat : DataFrame -> string -> outcome f64) (df : DataFrame)
  (n : nat) (diffs : list f64) : M (list f64) :=
  match n with
  | O => ret diffs
  | S n' =>
      b_sample <- df_sample df ;;
      d <- lift (stat_diff stat b_sample) ;;
      bootstrap_loop stat df n' (diffs ++ [d])
  end.

(** Cell 9 (and 20, 26, 34, 40), with the number of rounds as a parameter. *)
Definition bootstrap (stat : DataFrame -> string -> outcome f64) (df : DataFrame) (n : nat)
  : M (list f64) :=
  bootstrap_loop stat df n [].

(** [ndarray.std()]: the root of the mean squared deviation from the mean. *)
Definition np_var (xs : list f64) : f64 :=
  let m := np_mean xs in
  np_mean (map (fun x => let d := fsub x m in fmul d d) xs).

Definition np_std (xs : list f64) : f64 := np_sqrt (np_var xs).

Fixpoint standard_normals (k : nat) (s : rng) : list f64 * rng :=
  match k with
  | O => ([], s)
  | S k' =>
      let (z, s1) := standard_normal s in
      let (rest, s2) := standard_normals k' s1 in
      (z :: rest, s2)
  end.

Definition np_random_seed (k : Z) : M unit := fun _ => Ok (tt, seed k).

(** [np.random.normal(loc, scale, size)]: [loc + scale * z] on [size]
    standard normal draws; a negative scale is refused. *)
Definition np_random_normal (loc scale : f64) (size : nat) : M (list f64) :=
  fun s =>
    if flt scale (Fin 0) then Raise ValueError
    else
      let (zs, s') := standard_normals size s in
      Ok (map (fun z => fadd loc (fmul scale z)) zs, s').

(** Cell 10: [np.random.seed(42)];
    [null_vals = np.random.normal(0, diffs.std(), diffs.size)] *)
Definition null_vals (diffs : list f64) : M (list f64) :=
  _ <- np_random_seed 42 ;;
  np_random_normal (Fin 0) (np_std diffs) (List.length diffs).

(** One experiment, from the observed difference to the p-value
    (cells 6-11, 17-22, 24-28, 32-36, 37-42). *)
Definition experiment (stat : DataFrame -> string -> outcome f64) (df : DataFrame) (n : nat)
  : M f64 :=
  control_stat <- lift (stat df "control"%string) ;;
  experiment_stat <- lift (stat df "experiment"%string) ;;
  let obs_diff := fsub experiment_stat control_stat in
  diffs <- bootstrap stat df n ;;
  nulls <- null_vals diffs ;;
  ret (p_value nulls obs_diff).

(** The course experiment (cells 12-42): four metrics, whose p-values are
    appended to [p_values]. *)
Definition course_experiments (n : nat) (course classroom : DataFrame) : M (list f64) :=
  p_enroll <- experiment (ctr "enroll" "view") course n ;;
  p_reading <- experiment (field_mean duration) course n ;;
  p_classroom <- experiment (field_mean total_days) classroom n ;;
  p_completion <- experiment completed_mean classroom n ;;
  ret [p_enroll; p_reading; p_classroom; p_completion].

(** The whole script on its three tables: the homepage experiment, then the
    course experiment. *)
Definition script_rounds (n : nat) (homepage course classroom : DataFrame)
  : M (f64 * list f64) :=
  p_home <- experiment (ctr "click" "view") homepage n ;;
  p_values <- course_experiments n course classroom ;;
  ret (p_home, p_values).

(** The script runs 10,000 rounds. *)
Definition rounds : nat := Z.to_nat 10000.

Definition script : DataFrame -> DataFrame -> DataFrame -> M (f64 * list f64) :=
  script_rounds rounds.

End Cells.

(** ** A concrete random state *)

(** A linear congruential generator with a table-driven normal draw and a
    fixed-point square root: enough to run the cells on concrete tables. *)
Module Lcg.

Definition step (s : Z) : Z := ((s * 1103515245 + 12345) mod 2147483648)%Z.

Definition high_bits (s : Z) : Z := (s / 65536)%Z.

Definition draw_int (bound : nat) (s : Z) : nat * Z :=
  (Z.to_nat (high_bits s mod Z.of_nat bound), step s).

Definition draw_normal (s : Z) : f64 * Z :=
  (fin ((high_bits s mod 6001 - 3000) # 1000), step s).

Definition fixed_sqrt (x : f64) : f64 :=
  match x with
  | NaN | NInf => NaN
  | PInf => PInf
  | Fin q =>
      if Qle_bool 0 q
      then fin (Z.sqrt (Qnum q * 1000000000000 / Zpos (Qden q)) # 1000000)
      else NaN
  end.

#[export] Instance numpy : Numpy := {|
  rng := Z;
  seed := fun k => k;
  randint := draw_int;
  standard_normal := draw_normal;
  np_sqrt := fixed_sqrt
|}.

End Lcg.

(** ** Concrete tables *)

Definition row (i : Z) (g a : string) : Row :=
  {| timestamp := ""; id := i; group := g; action := a;
     duration := NaN; total_days := NaN; completed := false |}.

Definition timed_row (i : Z) (g a : string) (d : Q) : Row :=
  {| timestamp := ""; id := i; group := g; action := a;
     duration := Fin d; total_days := NaN; completed := false |}.

Definition classroom_row (i : Z) (g : string) (days : Q) (c : bool) : Row :=
  {| timestamp := ""; id := i; group := g; action := "";
     duration := NaN; total_days := Fin days; completed := c |}.

(** Three viewers per group; one control viewer and two experiment viewers
    click. *)
Definition homepage_table : DataFrame :=
  [ row 1 "control" "view"; row 1 "control" "click";
    row 2 "control" "view"; row 3 "control" "view";
    row 4 "experiment" "view"; row 4 "experiment" "click";
    row 5 "experiment" "view"; row 5 "experiment" "click";
    row 6 "experiment" "view" ].

(** A course page table: every row carries a reading duration; one control
    row is an enrollment. *)
Definition course_table : DataFrame :=
  [ timed_row 1 "control" "view" 20; timed_row 1 "control" "enroll" 10;
    timed_row 2 "control" "view" 30; timed_row 3 "control" "view" 40;
    timed_row 4 "experiment" "view" 50; timed_row 4 "experiment" "enroll" 15;
    timed_row 5 "experiment" "view" 60; timed_row 5 "experiment" "enroll" 25;
    timed_row 6 "experiment" "view" 70 ].

(** A classroom table in which user 1 has two records that disagree. *)
Definition classroom_table : DataFrame :=
  [ classroom_row 1 "control" 10 true; classroom_row 1 "control" 20 false;
    classroom_row 2 "control" 5 true;
    classroom_row 3 "experiment" 7 true; classroom_row 4 "experiment" 9 false ].


(** Exact sum of rationals, to state what a mean is. *)
Definition Qsum (qs : list Q) : Q := fold_right Qplus 0 qs.

(** ** The descriptive cells (cells 4-5, 15-16, 31, 43) *)

(** Cell 5: [df.shape[0]], [df.id.nunique()] and
    [df.query('group == "g"').id.nunique()]. *)
Definition total_actions (df : DataFrame) : nat := List.length df.

Definition unique_users (df : DataFrame) : nat := nunique (map id df).

Definition group_size (df : DataFrame) (g : string) : nat :=
  nunique (map id (query (group_is g) df)).

(** [Series.unique()]: the distinct values in order of first appearance. *)
Fixpoint unique (l : list string) : list string :=
  match l with
  | [] => []
  | x :: rest => x :: filter (fun y => negb (String.eqb y x)) (unique rest)
  end.

(** Cell 4: [df.action.unique()[0]] and [df.action.unique()[1]]. *)
Definition actions_recorded (df : DataFrame) : outcome (string * string) :=
  let actions := unique (map action df) in
  match nth_error actions 0 with
  | None => Raise IndexError
  | Some first =>
      match nth_error actions 1 with
      | None => Raise IndexError
      | Some second => Ok (first, second)
      end
  end.

(** Cell 43: the names of the four metrics of the course experiment. *)
Definition metrics : list string :=
  [ "Enrollment Rate"; "Average Reading Duration";
    "Average Classroom Time"; "Completion Rate" ]%string.

(** [for i, pvalue in enumerate(p_values): print(metrics[i], pvalue)]: the
    lines printed, as pairs; [names[i]] raises out of range. *)
Fixpoint report_from (names : list string) (i : nat) (p_values : list f64)
  : outcome (list (string * f64)) :=
  match p_values with
  | [] => Ok []
  | pvalue :: rest =>
      match nth_error names i with
      | None => Raise IndexError
      | Some name =>
          obind (report_from names (S i) rest) (fun lines => Ok ((name, pvalue) :: lines))
      end
  end.

Definition report (p_values : list f64) : outcome (list (string * f64)) :=
  report_from metrics 0 p_values.

(** ** Reading times per user (cell 23) *)

(** The key of [groupby(['id', 'group'])]. *)
Definition key_of (r : Row) : Z * string := (id r, group r).

(** Keys are ordered by [id], then by [group] in lexical order. *)
Definition key_compare (k1 k2 : Z * string) : comparison :=
  match Z.compare (fst k1) (fst k2) with
  | Eq => String_as_OT.compare (snd k1) (snd k2)
  | c => c
  end.

Fixpoint insert_key (k : Z * string) (keys : list (Z * string)) : list (Z * string) :=
  match keys with
  | [] => [k]
  | k' :: rest =>
      match key_compare k k' with
      | Lt => k :: keys
      | Eq => keys
      | Gt => k' :: insert_key k rest
      end
  end.

(** The group keys of a table: each key once, in increasing order. *)
Definition group_keys (rows : DataFrame) : list (Z * string) :=
  fold_right insert_key [] (map key_of rows).

Definition has_key (k : Z * string) (r : Row) : bool :=
  Z.eqb (id r) (fst k) && String.eqb (group r) (snd k).

(** [views = df.query('action == "view"')];
    [views.groupby(['id', 'group'])['duration'].mean().reset_index()]:
    one row per key, with the mean duration of the views of that key. *)
Definition reading_times (df : DataFrame) : list (Z * string * f64) :=
  let views := query (action_is "view") df in
  map (fun k => (k, series_mean (map duration (query (has_key k) views))))
      (group_keys views).

(** * Properties *)

(** ** Arithmetic on doubles *)

Lemma Qred_inject_Z (z : Z) : Qred (inject_Z z) = inject_Z z.
Proof.
  apply Qred_identity. simpl. apply Z.gcd_1_r.
Qed.

Lemma fin_eq (a b : Q) : a == b -> fin a = fin b.
Proof.
  intro H. unfold fin. f_equal. now apply Qred_complete.
Qed.

Lemma fadd_of_nat_of_bool (k : nat) (b : bool) :
  fadd (of_nat k) (of_bool b) = of_nat (k + (if b then 1 else 0)).
Proof.
  unfold of_nat, of_bool, fadd, fin.
  destruct b; f_equal.
  - rewrite <- (Qred_inject_Z (Z.of_nat (k + 1))).
    apply Qred_complete.
    rewrite Nat2Z.inj_add, inject_Z_plus. reflexivity.
  - rewrite Nat.add_0_r, <- (Qred_inject_Z (Z.of_nat k)).
    apply Qred_complete. rewrite Qred_inject_Z. ring.
Qed.

Lemma fold_fadd_of_bools (bs : list bool) (k : nat) :
  fold_left fadd (map of_bool bs) (of_nat k) = of_nat (k + count_true bs).
Proof.
  revert k. induction bs as [|b bs IH]; intro k; cbn [map fold_left].
  - unfold count_true. simpl. now rewrite Nat.add_0_r.
  - rewrite fadd_of_nat_of_bool, IH. f_equal.
    unfold count_true. destruct b; simpl; lia.
Qed.

Lemma fsum_of_bools (bs : list bool) :
  fsum (map of_bool bs) = of_nat (count_true bs).
Proof.
  unfold fsum. change (Fin 0) with (of_nat 0). now rewrite fold_fadd_of_bools.
Qed.

Lemma fdiv_of_nat (a b : nat) :
  fdiv (of_nat a) (of_nat (S b)) = fin (Z.of_nat a # Pos.of_nat (S b)).
Proof.
  unfold fdiv, of_nat.
  assert (Hpos : Z.of_nat (S b) = Zpos (Pos.of_nat (S b))).
  { rewrite <- (Nat2Pos.id (S b)) at 1 by discriminate.
    now rewrite positive_nat_Z. }
  rewrite Hpos.
  replace (Qeq_bool (inject_Z (Zpos (Pos.of_nat (S b)))) 0) with false by reflexivity.
  apply fin_eq. symmetry. apply Qmake_Qdiv.
Qed.

Lemma np_mean_of_bools (b : bool) (bs : list bool) :
  np_mean (map of_bool (b :: bs))
  = fin (Z.of_nat (count_true (b :: bs)) # Pos.of_nat (List.length (b :: bs))).
Proof.
  unfold np_mean. rewrite fsum_of_bools, length_map. apply fdiv_of_nat.
Qed.

Lemma count_true_map {A : Type} (f : A -> bool) (l : list A) :
  count_true (map f l) = List.length (filter f l).
Proof.
  unfold count_true. induction l as [|x l IH]; simpl; [reflexivity|].
  destruct (f x); simpl; now rewrite IH.
Qed.

Lemma flt_asym (x y : f64) : flt x y = true -> flt y x = false.
Proof.
  destruct x as [| |a|], y as [| |b|]; simpl; try reflexivity; try discriminate.
  rewrite <- (Qcompare_antisym a b).
  destruct (a ?= b); simpl; congruence.
Qed.

Lemma fgt_nan_r (v : f64) : fgt v NaN = false.
Proof.
  reflexivity.
Qed.

Lemma filter_none {A : Type} (f : A -> bool) (l : list A) :
  Forall (fun x => f x = false) l -> filter f l = [].
Proof.
  induction 1 as [|x l Hx _ IH]; simpl; [reflexivity|]. now rewrite Hx.
Qed.

Lemma filter_all {A : Type} (f : A -> bool) (l : list A) :
  Forall (fun x => f x = true) l -> filter f l = l.
Proof.
  induction 1 as [|x l Hx _ IH]; simpl; [reflexivity|]. now rewrite Hx, IH.
Qed.

Lemma p_value_fraction (v : f64) (vs : list f64) (obs_diff : f64) :
  p_value (v :: vs) obs_diff
  = fin (Z.of_nat (List.length (filter (fun x => fgt x obs_diff) (v :: vs)))
         # Pos.of_nat (List.length (v :: vs))).
Proof.
  unfold p_value.
  change (map (fun x => fgt x obs_diff) (v :: vs))
    with (fgt v obs_diff :: map (fun x => fgt x obs_diff) vs).
  rewrite np_mean_of_bools.
  change (fgt v obs_diff :: map (fun x => fgt x obs_diff) vs)
    with (map (fun x => fgt x obs_diff) (v :: vs)).
  now rewrite count_true_map, length_map.
Qed.

Lemma p_value_empty (obs_diff : f64) : p_value [] obs_diff = NaN.
Proof.
  reflexivity.
Qed.

Lemma Z_of_nat_S_pos (b : nat) : Z.of_nat (S b) = Zpos (Pos.of_nat (S b)).
Proof.
  rewrite <- (Nat2Pos.id (S b)) at 1 by discriminate.
  now rewrite positive_nat_Z.
Qed.

Lemma fin_zero_ratio (p : positive) : fin (0 # p) = Fin 0.
Proof.
  change (Fin 0) with (fin 0). apply fin_eq. reflexivity.
Qed.

Lemma fin_unit_ratio (b : nat) : fin (Z.of_nat (S b) # Pos.of_nat (S b)) = Fin 1.
Proof.
  change (Fin 1) with (fin 1). apply fin_eq.
  unfold Qeq. cbn [Qnum Qden]. rewrite Z_of_nat_S_pos. lia.
Qed.

Lemma p_value_nan (v : f64) (vs : list f64) : p_value (v :: vs) NaN = Fin 0.
Proof.
  rewrite p_value_fraction, filter_none.
  - apply fin_zero_ratio.
  - apply Forall_forall. intros x _. apply fgt_nan_r.
Qed.

(** ** The significance step *)

(** C1: on a non-empty null distribution the p-value is the share of null
    values strictly greater than the observed difference; the verdict is
    [p_value < alpha]; null values all below the observation give 0, all
    above give 1. *)
Theorem p_value_right_tail_fraction (null_vals : list f64) (obs_diff a : f64) :
  null_vals <> [] ->
  p_value null_vals obs_diff
  = fin (Z.of_nat (List.length (filter (fun v => fgt v obs_diff) null_vals))
         # Pos.of_nat (List.length null_vals))
  /\ (exists r : TestResult,
        significance_test obs_diff null_vals a = Ok r
        /\ result_p_value r = p_value null_vals obs_diff
        /\ (reject_null r = true <-> flt (p_value null_vals obs_diff) a = true))
  /\ (Forall (fun v => flt v obs_diff = true) null_vals ->
      p_value null_vals obs_diff = Fin 0)
  /\ (Forall (fun v => fgt v obs_diff = true) null_vals ->
      p_value null_vals obs_diff = Fin 1).
Proof.
  intro Hne. destruct null_vals as [|v vs]; [congruence|].
  split; [apply p_value_fraction|].
  split.
  { eexists. split; [reflexivity|]. cbn [result_p_value reject_null]. tauto. }
  split; intro Hall; rewrite p_value_fraction.
  - rewrite filter_none; [apply fin_zero_ratio|].
    eapply Forall_impl; [|exact Hall]. intros x Hx. now apply flt_asym.
  - rewrite filter_all by exact Hall. apply fin_unit_ratio.
Qed.

Lemma p_value_right_tail_fraction_witness :
  p_value [Fin 1; Fin 3; Fin 4; Fin 5] (Fin 2) = Fin (3 # 4)
  /\ p_value [Fin 1; Fin 3] (Fin 0) = Fin 1.
Proof.
  split.
  - destruct (p_value_right_tail_fraction [Fin 1; Fin 3; Fin 4; Fin 5] (Fin 2) (Fin (1 # 20)))
      as [H _]; [discriminate|].
    rewrite H. reflexivity.
  - destruct (p_value_right_tail_fraction [Fin 1; Fin 3] (Fin 0) (Fin (1 # 20)))
      as (_ & _ & _ & H); [discriminate|].
    apply H. repeat constructor.
Defined.

(** C10: a NaN observed difference compares false with every null value, so
    on a non-empty null distribution the p-value is 0, the null hypothesis is
    rejected at every positive alpha, and nothing is raised. *)
Theorem p_value_nan_observed (null_vals : list f64) (a : f64) :
  null_vals <> [] ->
  flt (Fin 0) a = true ->
  p_value null_vals NaN = Fin 0
  /\ exists r : TestResult,
       significance_test NaN null_vals a = Ok r
       /\ result_p_value r = Fin 0
       /\ reject_null r = true.
Proof.
  intros Hne Ha. destruct null_vals as [|v vs]; [congruence|].
  split; [apply p_value_nan|].
  eexists. split; [reflexivity|].
  cbn [result_p_value reject_null]. rewrite p_value_nan. now split.
Qed.

Lemma p_value_nan_observed_witness :
  p_value [Fin (1 # 2); Fin (-1 # 3)] NaN = Fin 0
  /\ exists r : TestResult,
       significance_test NaN [Fin (1 # 2); Fin (-1 # 3)] (Fin (1 # 20)) = Ok r
       /\ result_p_value r = Fin 0
       /\ reject_null r = true.
Proof.
  apply (p_value_nan_observed [Fin (1 # 2); Fin (-1 # 3)] (Fin (1 # 20))).
  - discriminate.
  - reflexivity.
Defined.

(** C7, as the spec has it, fails: with a NaN observed difference the test
    returns the p-value 0, and with an empty null distribution it returns
    NaN; neither raises. *)
Lemma significance_test_returns_on_bad_input :
  significance_test NaN [Fin 1] (Fin (1 # 20))
  = Ok {| observed_difference := NaN; result_p_value := Fin 0;
          alpha := Fin (1 # 20); reject_null := true |}
  /\ significance_test (Fin 0) [] (Fin (1 # 20))
     = Ok {| observed_difference := Fin 0; result_p_value := NaN;
             alpha := Fin (1 # 20); reject_null := false |}.
Proof.
  split; reflexivity.
Qed.

(** C7, amended: the significance step never raises.  On an empty null
    distribution the p-value is NaN and the verdict is "do not reject"; on a
    NaN observed difference and a non-empty null distribution the p-value
    is 0. *)
Theorem significance_test_never_raises (obs_diff : f64) (null_vals : list f64) (a : f64) :
  exists r : TestResult,
    significance_test obs_diff null_vals a = Ok r
    /\ (null_vals = [] -> result_p_value r = NaN /\ reject_null r = false)
    /\ (null_vals <> [] -> obs_diff = NaN -> result_p_value r = Fin 0).
Proof.
  eexists. split; [reflexivity|]. cbn [result_p_value reject_null]. split.
  - intros ->. split; reflexivity.
  - intros Hne ->. destruct null_vals as [|v vs]; [congruence|]. apply p_value_nan.
Qed.

(** ** Metrics *)

Lemma filter_filter {A : Type} (f g : A -> bool) (l : list A) :
  filter f (filter g l) = filter (fun x => g x && f x) l.
Proof.
  induction l as [|x l IH]; simpl; [reflexivity|].
  destruct (g x); simpl; [destruct (f x)|]; now rewrite IH.
Qed.

Lemma nunique_query (df : DataFrame) (g a : string) :
  nunique (map id (query (action_is a) (query (group_is g) df))) = uniqueUsers df g a.
Proof.
  unfold nunique, uniqueUsers, query. now rewrite filter_filter.
Qed.

(** [nunique] is the number of distinct values: it is the length of any
    duplicate-free enumeration of the column. *)
Lemma nunique_distinct (ids distinct : list Z) :
  NoDup distinct -> (forall x, In x distinct <-> In x ids) ->
  nunique ids = List.length distinct.
Proof.
  intros Hnd Hin. unfold nunique. apply Nat.le_antisymm.
  - apply NoDup_incl_length; [apply NoDup_nodup|].
    intros x Hx. apply Hin. now apply nodup_In in Hx.
  - apply NoDup_incl_length; [exact Hnd|].
    intros x Hx. apply nodup_In. now apply Hin.
Qed.

(** C3: the ratio-of-uniques metric is
    [uniqueUsers(group, target) / uniqueUsers(group, baseline)], and it raises
    the division error, instead of returning a number, when no row of the
    group carries the baseline action. *)
Theorem ctr_ratio_of_uniques (target baseline : string) (df : DataFrame) (g : string) :
  ctr target baseline df g
  = match uniqueUsers df g baseline with
    | O => Raise ZeroDivisionError
    | S _ => Ok (fin (Z.of_nat (uniqueUsers df g target)
                      # Pos.of_nat (uniqueUsers df g baseline)))
    end
  /\ (filter (fun r => group_is g r && action_is baseline r) df = [] ->
      ctr target baseline df g = Raise ZeroDivisionError)
  /\ (forall distinct : list Z,
        NoDup distinct ->
        (forall x, In x distinct <->
                   exists r, In r df /\ group r = g /\ action r = baseline /\ id r = x) ->
        uniqueUsers df g baseline = List.length distinct).
Proof.
  assert (Heq : ctr target baseline df g
                = match uniqueUsers df g baseline with
                  | O => Raise ZeroDivisionError
                  | S _ => Ok (fin (Z.of_nat (uniqueUsers df g target)
                                    # Pos.of_nat (uniqueUsers df g baseline)))
                  end).
  { unfold ctr. rewrite !nunique_query. unfold py_truediv.
    now destruct (uniqueUsers df g baseline). }
  split; [exact Heq|]. split.
  - intro Hnone. rewrite Heq. unfold uniqueUsers. now rewrite Hnone.
  - intros distinct Hnd Hin. apply nunique_distinct; [exact Hnd|].
    intro x. rewrite Hin, in_map_iff. split.
    + intros (r & Hr & Hg & Ha & Hid). exists r. split; [exact Hid|].
      apply filter_In. split; [exact Hr|].
      unfold group_is, action_is. rewrite Hg, Ha, !String.eqb_refl. reflexivity.
    + intros (r & Hid & Hr). apply filter_In in Hr. destruct Hr as [Hr Hb].
      apply andb_true_iff in Hb. destruct Hb as [Hg Ha].
      apply String.eqb_eq in Hg, Ha. now exists r.
Qed.

Lemma fadd_fin (a q : Q) : fadd (fin a) (Fin q) = fin (a + q).
Proof.
  unfold fadd, fin at 1. apply fin_eq. now rewrite Qred_correct.
Qed.

Lemma fold_fadd_finite (qs : list Q) (a : Q) :
  fold_left fadd (map Fin qs) (fin a) = fin (a + Qsum qs).
Proof.
  revert a. induction qs as [|q qs IH]; intro a; cbn [map fold_left Qsum fold_right].
  - apply fin_eq. ring.
  - rewrite fadd_fin, IH. apply fin_eq. unfold Qsum. ring.
Qed.

Lemma fsum_finite (qs : list Q) : fsum (map Fin qs) = fin (Qsum qs).
Proof.
  unfold fsum. change (Fin 0) with (fin 0). rewrite fold_fadd_finite.
  apply fin_eq. ring.
Qed.

Lemma fdiv_fin_of_nat (a : Q) (n : nat) :
  fdiv (fin a) (of_nat (S n)) = fin (a / inject_Z (Z.of_nat (S n))).
Proof.
  unfold fdiv, fin at 1, of_nat. rewrite Z_of_nat_S_pos.
  replace (Qeq_bool (inject_Z (Zpos (Pos.of_nat (S n)))) 0) with false by reflexivity.
  apply fin_eq. now rewrite Qred_correct.
Qed.







Lemma series_mean_of_bools (bs : list bool) :
  series_mean (map of_bool bs) = np_mean (map of_bool bs).
Proof.
  unfold series_mean. rewrite filter_all.
  - destruct bs; reflexivity.
  - apply Forall_forall. intros x Hx. apply in_map_iff in Hx.
    destruct Hx as ([|] & <- & _); reflexivity.
Qed.





(** ** Several metrics at once *)

(** C8: under the Bonferroni policy every corrected result carries
    [familyAlpha / k] as its alpha and a verdict recomputed against it, the
    p-values being kept; with four results and a family alpha of 0.05 the
    corrected alpha is 0.0125, and the p-values 0.001, 0.012, 0.03, 0.09 get
    the verdicts true, true, false, false. *)
Theorem correct_bonferroni (results : list TestResult) (familyAlpha : f64) :
  List.length (correct results familyAlpha) = List.length results
  /\ map result_p_value (correct results familyAlpha) = map result_p_value results
  /\ Forall (fun r =>
               alpha r = fdiv familyAlpha (of_nat (List.length results))
               /\ reject_null r
                  = flt (result_p_value r) (fdiv familyAlpha (of_nat (List.length results))))
            (correct results familyAlpha)
  /\ bonferroni_alpha (fin (5 # 100)) 4 = fin (125 # 10000)
  /\ map reject_null
       (correct (map (fun p => mkTestResult (Fin 0) (fin p) (fin (5 # 100)) true)
                     [1 # 1000; 12 # 1000; 3 # 100; 9 # 100])
                (fin (5 # 100)))
     = [true; true; false; false].
Proof.
  unfold correct. rewrite length_map, map_map. cbn [result_p_value].
  split; [reflexivity|]. split; [apply map_ext; reflexivity|]. split.
  - apply Forall_forall. intros r Hr. apply in_map_iff in Hr.
    destruct Hr as (r0 & <- & _). split; reflexivity.
  - split; reflexivity.
Qed.

(** ** Resampling *)

Section CellProperties.

Context {N : Numpy}.








Lemma bootstrap_loop_step
  (stat : DataFrame -> string -> outcome f64) (df : DataFrame) (n : nat)
  (diffs : list f64) (s : rng) :
  bootstrap_loop stat df (S n) diffs s
  = match df_sample df s with
    | Ok (b_sample, s1) =>
        match stat_diff stat b_sample with
        | Ok d => bootstrap_loop stat df n (diffs ++ [d]) s1
        | Raise e => Raise e
        end
    | Raise e => Raise e
    end.
Proof.
  cbn [bootstrap_loop]. unfold bind, lift.
  destruct (df_sample df s) as [[b s1]|e]; [|reflexivity].
  now destruct (stat_diff stat b).
Qed.


Lemma ctr_raises_zero_division (target baseline : string) (df : DataFrame) (g : string) (e : exn) :
  ctr target baseline df g = Raise e -> e = ZeroDivisionError.
Proof.
  unfold ctr, py_truediv.
  destruct (nunique (map id (query (action_is baseline) (query (group_is g) df))));
    intro H; [now injection H|discriminate].
Qed.



Lemma bootstrap_loop_length
  (stat : DataFrame -> string -> outcome f64) (df : DataFrame) (n : nat) :
  forall (diffs ds : list f64) (s s' : rng),
    bootstrap_loop stat df n diffs s = Ok (ds, s') ->
    List.length ds = (List.length diffs + n)%nat.
Proof.
  induction n as [|n IH]; intros diffs ds s s' H.
  - cbn [bootstrap_loop] in H. unfold ret in H. injection H as <- _. lia.
  - rewrite bootstrap_loop_step in H.
    destruct (df_sample df s) as [[b s1]|e]; [|discriminate].
    destruct (stat_diff stat b) as [d|e]; [|discriminate].
    apply IH in H. rewrite H, length_app. cbn [List.length]. lia.
Qed.


Lemma null_vals_unfold (diffs : list f64) (s : rng) :
  null_vals diffs s
  = if flt (np_std diffs) (Fin 0) then Raise ValueError
    else Ok (map (fun z => fadd (Fin 0) (fmul (np_std diffs) z))
                 (fst (standard_normals (List.length diffs) (seed 42))),
             snd (standard_normals (List.length diffs) (seed 42))).
Proof.
  unfold null_vals, bind, np_random_seed, np_random_normal.
  destruct (flt (np_std diffs) (Fin 0)); [reflexivity|].
  now destruct (standard_normals (List.length diffs) (seed 42)).
Qed.


End CellProperties.






(** ** The null distribution *)



(** ** Reproducibility *)




(** * Further properties of the cells *)

(** ** The p-value as a function of its arguments *)

Lemma filter_length_le_all {A : Type} (f : A -> bool) (l : list A) :
  (List.length (filter f l) <= List.length l)%nat.
Proof.
  induction l as [|x l IH]; simpl; [lia|]. destruct (f x); simpl; lia.
Qed.

Lemma filter_length_mono {A : Type} (f g : A -> bool) (l : list A) :
  (forall x, In x l -> f x = true -> g x = true) ->
  (List.length (filter f l) <= List.length (filter g l))%nat.
Proof.
  induction l as [|x l IH]; intro H; simpl; [lia|].
  assert (IH' : (List.length (filter f l) <= List.length (filter g l))%nat).
  { apply IH. intros y Hy. apply H. now right. }
  destruct (f x) eqn:Hf.
  - rewrite (H x (or_introl eq_refl) Hf). simpl. lia.
  - destruct (g x); simpl; lia.
Qed.

Lemma ratio_le (a b : nat) (n : nat) :
  (a <= b)%nat ->
  Qred (Z.of_nat a # Pos.of_nat (S n)) <= Qred (Z.of_nat b # Pos.of_nat (S n)).
Proof.
  intro H. apply Qred_le. unfold Qle. cbn [Qnum Qden].
  apply Z.mul_le_mono_nonneg_r; lia.
Qed.

Lemma p_value_unit (v : f64) (vs : list f64) (obs_diff : f64) :
  exists q : Q, p_value (v :: vs) obs_diff = Fin q /\ 0 <= q <= 1.
Proof.
  rewrite p_value_fraction. unfold fin. eexists. split; [reflexivity|].
  set (c := List.length (filter (fun x => fgt x obs_diff) (v :: vs))).
  assert (Hc : (c <= List.length (v :: vs))%nat) by apply filter_length_le_all.
  cbn [List.length] in *.
  split; rewrite Qred_correct; unfold Qle; cbn [Qnum Qden].
  - lia.
  - rewrite <- Z_of_nat_S_pos. lia.
Qed.

(** X1: The p-value of a non-empty null distribution is a number between 0 and
    1. *)
Theorem p_value_in_unit_interval (null_vals : list f64) (obs_diff : f64) :
  null_vals <> [] ->
  exists q : Q, p_value null_vals obs_diff = Fin q /\ 0 <= q <= 1.
Proof.
  intro Hne. destruct null_vals as [|v vs]; [congruence|]. apply p_value_unit.
Qed.

Lemma p_value_in_unit_interval_witness :
  exists q : Q, p_value [Fin 1; Fin 3; NaN] (Fin 2) = Fin q /\ 0 <= q <= 1.
Proof.
  apply (p_value_in_unit_interval [Fin 1; Fin 3; NaN] (Fin 2)). discriminate.
Defined.

Lemma flt_le_lt_trans (a b v : f64) :
  isnan a = false -> isnan b = false ->
  flt b a = false -> flt b v = true -> flt a v = true.
Proof.
  destruct a as [| |a|], b as [| |b|], v as [| |v|]; cbn [flt isnan];
    try discriminate; try reflexivity; intros _ _ Hba Hbv.
  destruct (b ?= a) eqn:E1; try discriminate;
    destruct (b ?= v) eqn:E2; try discriminate.
  - apply Qeq_alt in E1. apply Qlt_alt in E2.
    assert (H : a < v) by (rewrite <- E1; exact E2).
    now rewrite (proj1 (Qlt_alt a v) H).
  - apply Qgt_alt in E1. apply Qlt_alt in E2.
    assert (H : a < v) by (eapply Qlt_trans; eassumption).
    now rewrite (proj1 (Qlt_alt a v) H).
Qed.

(** X2: A larger observed difference never has a larger p-value. *)
Theorem p_value_antitone (null_vals : list f64) (obs1 obs2 : f64) :
  null_vals <> [] ->
  isnan obs1 = false -> isnan obs2 = false ->
  flt obs2 obs1 = false ->
  exists q1 q2 : Q,
    p_value null_vals obs1 = Fin q1
    /\ p_value null_vals obs2 = Fin q2
    /\ q2 <= q1.
Proof.
  intros Hne H1 H2 Hle. destruct null_vals as [|v vs]; [congruence|].
  rewrite !p_value_fraction. unfold fin. eexists _, _.
  split; [reflexivity|]. split; [reflexivity|].
  cbn [List.length]. apply ratio_le. apply filter_length_mono.
  intros x _. unfold fgt. now apply flt_le_lt_trans.
Qed.

Lemma p_value_antitone_witness :
  exists q1 q2 : Q,
    p_value [Fin 1; Fin 3; Fin 5] (Fin 2) = Fin q1
    /\ p_value [Fin 1; Fin 3; Fin 5] (Fin 4) = Fin q2
    /\ q2 <= q1.
Proof.
  apply (p_value_antitone [Fin 1; Fin 3; Fin 5] (Fin 2) (Fin 4));
    solve [discriminate | reflexivity].
Defined.

Lemma filter_permutation {A : Type} (f : A -> bool) (l l' : list A) :
  Permutation l l' -> Permutation (filter f l) (filter f l').
Proof.
  induction 1 as [|x l l' _ IH|x y l|l l' l'' _ IH1 _ IH2]; simpl.
  - constructor.
  - destruct (f x); [now constructor|exact IH].
  - destruct (f x), (f y); try reflexivity. apply perm_swap.
  - now transitivity (filter f l').
Qed.

(** X3: The p-value does not depend on the order of the null values. *)
Theorem p_value_permutation (null_vals null_vals' : list f64) (obs_diff : f64) :
  Permutation null_vals null_vals' ->
  p_value null_vals obs_diff = p_value null_vals' obs_diff.
Proof.
  intro Hp.
  destruct null_vals as [|v vs].
  - apply Permutation_nil in Hp. now subst.
  - destruct null_vals' as [|w ws].
    + symmetry in Hp. apply Permutation_nil in Hp. discriminate.
    + rewrite !p_value_fraction.
      rewrite (Permutation_length (filter_permutation (fun x => fgt x obs_diff) _ _ Hp)).
      now rewrite (Permutation_length Hp).
Qed.

Lemma p_value_permutation_witness :
  p_value [Fin 1; Fin 3; Fin 5] (Fin 2) = p_value [Fin 5; Fin 1; Fin 3] (Fin 2).
Proof.
  apply (p_value_permutation [Fin 1; Fin 3; Fin 5] [Fin 5; Fin 1; Fin 3] (Fin 2)).
  apply Permutation_sym, (Permutation_cons_append [Fin 1; Fin 3] (Fin 5)).
Defined.

(** ** Counting users *)

Lemma nunique_incl (l l' : list Z) : incl l l' -> (nunique l <= nunique l')%nat.
Proof.
  intro H. unfold nunique. apply NoDup_incl_length; [apply NoDup_nodup|].
  intros x Hx. apply nodup_In. apply H. now apply nodup_In in Hx.
Qed.

Lemma nunique_same_elements (l l' : list Z) :
  (forall x, In x l <-> In x l') -> nunique l = nunique l'.
Proof.
  intro H. apply Nat.le_antisymm; apply nunique_incl; intros x Hx; now apply H.
Qed.

Lemma nunique_pos (l : list Z) : l <> [] -> (0 < nunique l)%nat.
Proof.
  destruct l as [|x l]; [congruence|]. intros _. unfold nunique.
  assert (Hin : In x (nodup Z.eq_dec (x :: l))) by (apply nodup_In; now left).
  destruct (nodup Z.eq_dec (x :: l)); [destruct Hin|cbn [List.length]; lia].
Qed.

Lemma in_ids_of_query (p : Row -> bool) (df : DataFrame) (x : Z) :
  In x (map id (query p df)) <-> exists r, In r df /\ p r = true /\ id r = x.
Proof.
  unfold query. rewrite in_map_iff. split.
  - intros (r & Hid & Hr). apply filter_In in Hr. destruct Hr. now exists r.
  - intros (r & Hr & Hp & Hid). exists r. split; [exact Hid|]. now apply filter_In.
Qed.

Lemma query_same_rows (p : Row -> bool) (df df' : DataFrame) :
  (forall r, In r df <-> In r df') ->
  forall x, In x (map id (query p df)) <-> In x (map id (query p df')).
Proof.
  intros H x. rewrite !in_ids_of_query.
  split; intros (r & Hr & Hp & Hid); exists r; (split; [now apply H|now split]).
Qed.

(** X4: The ratio-of-uniques metric depends only on which rows occur in the
    table, not on their order or on how often each occurs: a bootstrap
    sample that repeats rows has the metric of the rows it contains. *)
Theorem ctr_depends_on_row_set
  (target baseline : string) (df df' : DataFrame) (g : string) :
  (forall r, In r df <-> In r df') ->
  ctr target baseline df g = ctr target baseline df' g.
Proof.
  intro H. unfold ctr.
  assert (Hg : forall r, In r (query (group_is g) df) <-> In r (query (group_is g) df')).
  { intro r. unfold query. rewrite !filter_In. now rewrite H. }
  rewrite (nunique_same_elements _ _ (query_same_rows (action_is target) _ _ Hg)).
  now rewrite (nunique_same_elements _ _ (query_same_rows (action_is baseline) _ _ Hg)).
Qed.

Lemma ctr_depends_on_row_set_witness :
  ctr "click" "view" homepage_table "control"
  = ctr "click" "view" (homepage_table ++ rev homepage_table) "control".
Proof.
  apply (ctr_depends_on_row_set "click" "view" homepage_table
           (homepage_table ++ rev homepage_table) "control").
  intro r. rewrite in_app_iff, <- in_rev. tauto.
Defined.

(** X5: When every user of the group who did the target action also has a row
    with the baseline action, and the group has a baseline row, the
    ratio-of-uniques metric is a number between 0 and 1. *)
Theorem ctr_in_unit_interval
  (target baseline : string) (df : DataFrame) (g : string) :
  (forall r, In r df -> group_is g r = true -> action_is target r = true ->
             exists r', In r' df /\ group_is g r' = true
                        /\ action_is baseline r' = true /\ id r' = id r) ->
  (exists r, In r df /\ group_is g r = true /\ action_is baseline r = true) ->
  exists q : Q, ctr target baseline df g = Ok (Fin q) /\ 0 <= q <= 1.
Proof.
  intros Hsub (r0 & Hr0 & Hg0 & Hb0). unfold ctr.
  set (nt := nunique (map id (query (action_is target) (query (group_is g) df)))).
  set (nb := nunique (map id (query (action_is baseline) (query (group_is g) df)))).
  assert (Hle : (nt <= nb)%nat).
  { apply nunique_incl. intros x Hx. apply in_ids_of_query in Hx.
    destruct Hx as (r & Hr & Ht & Hid). apply filter_In in Hr. destruct Hr as [Hr Hg].
    destruct (Hsub r Hr Hg Ht) as (r' & Hr' & Hg' & Hb' & Hid').
    apply in_ids_of_query. exists r'. split; [now apply filter_In|].
    split; [exact Hb'|congruence]. }
  assert (Hpos : (0 < nb)%nat).
  { apply nunique_pos. intro Hnil.
    assert (Hin : In (id r0) (map id (query (action_is baseline) (query (group_is g) df)))).
    { apply in_ids_of_query. exists r0. split; [now apply filter_In|now split]. }
    rewrite Hnil in Hin. destruct Hin. }
  destruct nb as [|k]; [lia|]. cbn [py_truediv]. unfold fin.
  eexists. split; [reflexivity|].
  split; rewrite Qred_correct; unfold Qle; cbn [Qnum Qden].
  - lia.
  - rewrite <- Z_of_nat_S_pos. lia.
Qed.

Lemma ctr_in_unit_interval_witness :
  exists q : Q, ctr "click" "view" homepage_table "experiment" = Ok (Fin q) /\ 0 <= q <= 1.
Proof.
  apply (ctr_in_unit_interval "click" "view" homepage_table "experiment").
  - intros r Hr Hg Ht.
    exists (row (id r) "experiment" "view").
    cbn [homepage_table In] in Hr.
    repeat (destruct Hr as [<-|Hr];
            [try discriminate Hg; try discriminate Ht;
             cbn [homepage_table In]; repeat split; tauto|]).
    destruct Hr.
  - exists (row 4 "experiment" "view"). cbn [homepage_table In]. repeat split. tauto.
Defined.

(** X6: Cell 5.  When every row is in the control or in the experiment group,
    the two group sizes add up to at least the number of unique users, each
    is at most that number, and they add up to exactly that number when no
    user has rows in both groups. *)
Theorem group_sizes_cover_users (df : DataFrame) :
  (forall r, In r df -> group r = "control"%string \/ group r = "experiment"%string) ->
  (unique_users df <= group_size df "control" + group_size df "experiment")%nat
  /\ (group_size df "control" <= unique_users df)%nat
  /\ (group_size df "experiment" <= unique_users df)%nat
  /\ ((forall r r', In r df -> In r' df -> id r = id r' -> group r = group r') ->
      unique_users df = (group_size df "control" + group_size df "experiment")%nat).
Proof.
  intro Hgroups. unfold unique_users, group_size.
  set (ids := map id df).
  set (idsC := map id (query (group_is "control") df)).
  set (idsE := map id (query (group_is "experiment") df)).
  assert (HinC : incl idsC ids).
  { intros x Hx. apply in_ids_of_query in Hx. destruct Hx as (r & Hr & _ & <-).
    now apply in_map. }
  assert (HinE : incl idsE ids).
  { intros x Hx. apply in_ids_of_query in Hx. destruct Hx as (r & Hr & _ & <-).
    now apply in_map. }
  assert (Hcover : incl (nodup Z.eq_dec ids) (nodup Z.eq_dec idsC ++ nodup Z.eq_dec idsE)).
  { intros x Hx. apply nodup_In in Hx. apply in_map_iff in Hx.
    destruct Hx as (r & <- & Hr). apply in_or_app.
    destruct (Hgroups r Hr) as [Hg|Hg]; [left|right]; apply nodup_In, in_ids_of_query;
      exists r; unfold group_is; rewrite Hg; now repeat split. }
  assert (Hle : (nunique ids <= nunique idsC + nunique idsE)%nat).
  { unfold nunique. rewrite <- length_app.
    apply NoDup_incl_length; [apply NoDup_nodup|exact Hcover]. }
  split; [exact Hle|]. split; [now apply nunique_incl|]. split; [now apply nunique_incl|].
  intro Hdisjoint. apply Nat.le_antisymm; [exact Hle|].
  unfold nunique. rewrite <- length_app.
  apply NoDup_incl_length.
  - apply NoDup_app; [apply NoDup_nodup|apply NoDup_nodup|].
    intros x HxC HxE. apply nodup_In, in_ids_of_query in HxC, HxE.
    destruct HxC as (r & Hr & Hg & Hid). destruct HxE as (r' & Hr' & Hg' & Hid').
    apply String.eqb_eq in Hg, Hg'.
    assert (Hsame : group r = group r') by (apply Hdisjoint; congruence).
    congruence.
  - intros x Hx. apply nodup_In. apply in_app_or in Hx.
    destruct Hx as [Hx|Hx]; apply nodup_In in Hx; [now apply HinC|now apply HinE].
Qed.

Lemma group_sizes_cover_users_witness :
  (unique_users homepage_table
   <= group_size homepage_table "control" + group_size homepage_table "experiment")%nat.
Proof.
  apply (group_sizes_cover_users homepage_table).
  intros r Hr. cbn [homepage_table In] in Hr.
  repeat (destruct Hr as [<-|Hr]; [cbn [group row]; tauto|]). destruct Hr.
Defined.

(** ** Means *)

Lemma series_mean_of_filter (xs ys : list f64) :
  filter (fun x => negb (isnan x)) xs = filter (fun x => negb (isnan x)) ys ->
  series_mean xs = series_mean ys.
Proof.
  intro H. unfold series_mean. now rewrite H.
Qed.

Lemma present_cells_of_baseline_rows
  (field : Row -> f64) (df : DataFrame) (g baseline : string) :
  (forall r, In r df -> group_is g r = true -> action_is baseline r = false ->
             field r = NaN) ->
  filter (fun x => negb (isnan x)) (map field (filter (group_is g) df))
  = filter (fun x => negb (isnan x))
      (map field (filter (fun r => group_is g r && action_is baseline r) df)).
Proof.
  induction df as [|r df IH]; intro H; [reflexivity|].
  assert (IH' := IH (fun r' Hr' => H r' (or_intror Hr'))).
  cbn [filter].
  destruct (group_is g r) eqn:Hg; cbn [andb]; [|exact IH'].
  destruct (action_is baseline r) eqn:Hb; cbn [map filter].
  - now rewrite IH'.
  - rewrite (H r (or_introl eq_refl) Hg Hb). cbn [isnan negb]. exact IH'.
Qed.

(** X7: The mean-of-field metric skips missing cells: when the rows of the group
    that do not carry the baseline action have no value in the field, the
    metric is the mean of the field over the rows matching the group and the
    baseline action. *)
Theorem field_mean_skips_missing
  (field : Row -> f64) (df : DataFrame) (g baseline : string) :
  (forall r, In r df -> group_is g r = true -> action_is baseline r = false ->
             field r = NaN) ->
  field_mean field df g
  = Ok (series_mean (map field (filter (fun r => group_is g r && action_is baseline r) df))).
Proof.
  intro H. unfold field_mean, query. f_equal.
  apply series_mean_of_filter. now apply present_cells_of_baseline_rows.
Qed.

Lemma field_mean_skips_missing_witness :
  field_mean duration
    [timed_row 1 "control" "view" 20; row 1 "control" "enroll";
     timed_row 2 "control" "view" 30] "control"
  = Ok (series_mean
          (map duration
             (filter (fun r => group_is "control" r && action_is "view" r)
                [timed_row 1 "control" "view" 20; row 1 "control" "enroll";
                 timed_row 2 "control" "view" 30]))).
Proof.
  apply (field_mean_skips_missing duration
           [timed_row 1 "control" "view" 20; row 1 "control" "enroll";
            timed_row 2 "control" "view" 30] "control" "view").
  intros r [<-|[<-|[<-|[]]]] Hg Hb; solve [reflexivity | discriminate Hb].
Defined.

(** X8: The completion rate of a group without rows is NaN; otherwise it is a
    number between 0 and 1. *)
Theorem completed_mean_range (df : DataFrame) (g : string) :
  exists v : f64,
    completed_mean df g = Ok v
    /\ (query (group_is g) df = [] -> v = NaN)
    /\ (query (group_is g) df <> [] -> exists q : Q, v = Fin q /\ 0 <= q <= 1).
Proof.
  unfold completed_mean. eexists. split; [reflexivity|].
  rewrite <- (map_map completed of_bool), series_mean_of_bools.
  destruct (query (group_is g) df) as [|r rows].
  - split; [reflexivity|congruence].
  - split; [discriminate|]. intros _.
    change (map completed (r :: rows)) with (completed r :: map completed rows).
    rewrite np_mean_of_bools. unfold fin. eexists. split; [reflexivity|].
    assert (Hc : (count_true (completed r :: map completed rows)
                  <= List.length (completed r :: map completed rows))%nat)
      by apply filter_length_le_all.
    cbn [List.length] in *.
    split; rewrite Qred_correct; unfold Qle; cbn [Qnum Qden].
    + lia.
    + rewrite <- Z_of_nat_S_pos. lia.
Qed.

(** ** The descriptive cells *)

Lemma find_filter_other (p : string -> bool) (x : string) (u : list string) :
  p x = false ->
  find p (filter (fun y => negb (String.eqb y x)) u) = find p u.
Proof.
  intro Hx. induction u as [|y u IHu]; [reflexivity|].
  cbn [filter find]. destruct (String.eqb y x) eqn:Hyx; cbn [negb find].
  - apply String.eqb_eq in Hyx. subst y. rewrite Hx. exact IHu.
  - destruct (p y); [reflexivity|exact IHu].
Qed.

Lemma find_in_unique (p : string -> bool) (l : list string) :
  find p (unique l) = find p l.
Proof.
  induction l as [|x l IH]; [reflexivity|].
  cbn [unique find]. destruct (p x) eqn:Hx; [reflexivity|].
  now rewrite find_filter_other.
Qed.

Lemma nth_error_filter_first {A : Type} (p : A -> bool) (l : list A) :
  nth_error (filter p l) 0 = find p l.
Proof.
  induction l as [|x l IH]; [reflexivity|].
  cbn [filter find]. now destruct (p x).
Qed.

Lemma actions_recorded_cons (r : Row) (df : DataFrame) :
  actions_recorded (r :: df)
  = match find (fun a => negb (String.eqb a (action r))) (map action df) with
    | Some second => Ok (action r, second)
    | None => Raise IndexError
    end.
Proof.
  unfold actions_recorded. cbn [map unique]. cbv zeta.
  set (others := filter _ (unique (map action df))).
  change (nth_error (action r :: others) 0) with (Some (action r)).
  change (nth_error (action r :: others) 1) with (nth_error others 0).
  subst others. now rewrite nth_error_filter_first, find_in_unique.
Qed.

Lemma find_action_split (a : string) (df : DataFrame) (b : string) :
  find (fun x => negb (String.eqb x a)) (map action df) = Some b ->
  exists pre r post,
    df = pre ++ r :: post
    /\ (forall x, In x pre -> action x = a)
    /\ action r = b /\ b <> a.
Proof.
  induction df as [|r df IH]; [discriminate|].
  cbn [map find]. destruct (String.eqb (action r) a) eqn:E; cbn [negb].
  - intro H. destruct (IH H) as (pre & r' & post & -> & Hpre & Hr' & Hne).
    exists (r :: pre), r', post. split; [reflexivity|]. split; [|now split].
    intros x [<-|Hx]; [now apply String.eqb_eq|now apply Hpre].
  - intro H. injection H as <-. exists [], r, df.
    split; [reflexivity|]. split; [intros x []|].
    split; [reflexivity|]. now apply String.eqb_neq.
Qed.

Lemma find_action_none (a : string) (df : DataFrame) :
  (forall x, In x df -> action x = a) ->
  find (fun x => negb (String.eqb x a)) (map action df) = None.
Proof.
  induction df as [|r df IH]; intro H; [reflexivity|].
  cbn [map find]. rewrite (H r (or_introl eq_refl)), String.eqb_refl. cbn [negb].
  apply IH. intros x Hx. apply H. now right.
Qed.

(** X9: Cell 4 names the action of the first row and the first action that
    differs from it, in row order; it raises [IndexError] on an empty table
    and on a table whose rows all carry the same action. *)
Theorem actions_recorded_first_two (df : DataFrame) :
  (df = [] -> actions_recorded df = Raise IndexError)
  /\ (forall r rest,
        df = r :: rest -> (forall x, In x rest -> action x = action r) ->
        actions_recorded df = Raise IndexError)
  /\ (forall a b,
        actions_recorded df = Ok (a, b) ->
        a <> b
        /\ exists r pre r' post,
             df = r :: pre ++ r' :: post
             /\ action r = a
             /\ (forall x, In x pre -> action x = a)
             /\ action r' = b).
Proof.
  split; [intros ->; reflexivity|]. split.
  - intros r rest -> Hsame. rewrite actions_recorded_cons.
    now rewrite find_action_none.
  - intros a b H. destruct df as [|r df]; [discriminate|].
    rewrite actions_recorded_cons in H.
    destruct (find _ (map action df)) as [second|] eqn:Hf; [|discriminate].
    injection H as <- <-.
    destruct (find_action_split _ _ _ Hf) as (pre & r' & post & -> & Hpre & Hr' & Hne).
    split; [congruence|]. now exists r, pre, r', post.
Qed.

Lemma report_from_in_range (names : list string) (p_values : list f64) (i : nat) :
  (i + List.length p_values <= List.length names)%nat ->
  report_from names i p_values = Ok (combine (skipn i names) p_values).
Proof.
  revert i. induction p_values as [|p ps IH]; intros i H; cbn [report_from].
  - now rewrite combine_nil.
  - cbn [List.length] in H.
    destruct (nth_error names i) as [name|] eqn:Hn.
    + rewrite IH by lia. cbn [obind]. f_equal.
      assert (Hs : skipn i names = name :: skipn (S i) names).
      { clear - Hn. revert i Hn. induction names as [|x names IHn]; intros [|i] Hn;
          try discriminate.
        - now injection Hn as ->.
        - cbn [nth_error] in Hn. exact (IHn i Hn). }
      now rewrite Hs.
    + apply nth_error_None in Hn. lia.
Qed.

Lemma report_from_out_of_range (names : list string) (p_values : list f64) (i : nat) :
  (i <= List.length names)%nat ->
  (List.length names < i + List.length p_values)%nat ->
  report_from names i p_values = Raise IndexError.
Proof.
  revert i. induction p_values as [|p ps IH]; intros i Hi H; cbn [report_from].
  - cbn [List.length] in H. lia.
  - cbn [List.length] in H.
    destruct (nth_error names i) as [name|] eqn:Hn; [|reflexivity].
    assert (Hlt : (i < List.length names)%nat).
    { apply nth_error_Some. now rewrite Hn. }
    rewrite IH by lia. reflexivity.
Qed.

(** X10: Cell 43 pairs the i-th p-value with the i-th metric name.  With at most
    four p-values it prints one line per p-value; with more than four (the
    list [p_values] grows each time a cell that appends to it is run again)
    it raises [IndexError]. *)
Theorem report_pairs_names (p_values : list f64) :
  ((List.length p_values <= 4)%nat -> report p_values = Ok (combine metrics p_values))
  /\ ((4 < List.length p_values)%nat -> report p_values = Raise IndexError).
Proof.
  unfold report. split; intro H.
  - rewrite report_from_in_range; [reflexivity|cbn [metrics List.length]; lia].
  - apply report_from_out_of_range; cbn [metrics List.length]; lia.
Qed.

(** X11: After a complete run of the script, [p_values] holds exactly four
    p-values and cell 43 prints the four metric names with them. *)
Theorem script_report_complete
  (N : Numpy) (n : nat) (homepage course classroom : DataFrame)
  (s t : rng) (p : f64) (ps : list f64) :
  script_rounds n homepage course classroom s = Ok ((p, ps), t) ->
  exists p1 p2 p3 p4 : f64,
    ps = [p1; p2; p3; p4]
    /\ report ps = Ok [ ("Enrollment Rate"%string, p1);
                        ("Average Reading Duration"%string, p2);
                        ("Average Classroom Time"%string, p3);
                        ("Completion Rate"%string, p4) ].
Proof.
  unfold script_rounds, course_experiments, bind, ret.
  destruct (experiment (ctr "click" "view") homepage n s) as [[p0 s0]|]; [|discriminate].
  destruct (experiment (ctr "enroll" "view") course n s0) as [[p1 s1]|]; [|discriminate].
  destruct (experiment (field_mean duration) course n s1) as [[p2 s2]|]; [|discriminate].
  destruct (experiment (field_mean total_days) classroom n s2) as [[p3 s3]|]; [|discriminate].
  destruct (experiment completed_mean classroom n s3) as [[p4 s4]|]; [|discriminate].
  intro H. injection H as _ <- _. now exists p1, p2, p3, p4.
Qed.

Lemma script_report_complete_witness :
  exists p1 p2 p3 p4 : f64,
    [Fin (1 # 3); Fin 0; Fin (1 # 3); Fin (1 # 3)] = [p1; p2; p3; p4]
    /\ report [Fin (1 # 3); Fin 0; Fin (1 # 3); Fin (1 # 3)]
       = Ok [ ("Enrollment Rate"%string, p1);
              ("Average Reading Duration"%string, p2);
              ("Average Classroom Time"%string, p3);
              ("Completion Rate"%string, p4) ].
Proof.
  apply (script_report_complete Lcg.numpy 3 homepage_table course_table classroom_table
           3%Z 1000676753%Z (Fin (1 # 3))).
  vm_compute. reflexivity.
Defined.

(** ** Experiments as a whole *)

Lemma ctr_without_baseline (target baseline : string) (df : DataFrame) (g : string) :
  uniqueUsers df g baseline = 0%nat ->
  ctr target baseline df g = Raise ZeroDivisionError.
Proof.
  intro H. unfold ctr. rewrite !nunique_query, H. reflexivity.
Qed.

Lemma ctr_ok_or_zero_division (target baseline : string) (df : DataFrame) (g : string) :
  (exists v, ctr target baseline df g = Ok v)
  \/ ctr target baseline df g = Raise ZeroDivisionError.
Proof.
  destruct (ctr target baseline df g) as [v|e] eqn:E; [left; now exists v|right].
  now rewrite (ctr_raises_zero_division _ _ _ _ _ E).
Qed.

Section ExperimentFacts.

Context {N : Numpy}.



(** The loop only appends to [diffs]. *)
Lemma bootstrap_loop_appends
  (stat : DataFrame -> string -> outcome f64) (df : DataFrame) (n : nat) :
  forall (diffs ds : list f64) (s s' : rng),
    bootstrap_loop stat df n diffs s = Ok (ds, s') ->
    exists tail, ds = diffs ++ tail /\ List.length tail = n.
Proof.
  induction n as [|n IH]; intros diffs ds s s' H.
  - cbn [bootstrap_loop] in H. unfold ret in H. injection H as <- _.
    exists []. now rewrite app_nil_r.
  - rewrite bootstrap_loop_step in H.
    destruct (df_sample df s) as [[b s1]|e]; [|discriminate].
    destruct (stat_diff stat b) as [d|e]; [|discriminate].
    apply IH in H. destruct H as (tail & -> & Hlen).
    exists (d :: tail). rewrite <- app_assoc. split; [reflexivity|].
    cbn [List.length]. now rewrite Hlen.
Qed.

(** Rounds compose: [n + m] rounds are [n] rounds followed by [m] rounds on
    the state and the list that the first [n] left. *)
Lemma bootstrap_loop_add
  (stat : DataFrame -> string -> outcome f64) (df : DataFrame) (n m : nat) :
  forall (diffs : list f64) (s : rng),
    bootstrap_loop stat df (n + m) diffs s
    = match bootstrap_loop stat df n diffs s with
      | Ok (ds, s1) => bootstrap_loop stat df m ds s1
      | Raise e => Raise e
      end.
Proof.
  induction n as [|n IH]; intros diffs s.
  - reflexivity.
  - cbn [Nat.add]. rewrite !bootstrap_loop_step.
    destruct (df_sample df s) as [[b s1]|e]; [|reflexivity].
    destruct (stat_diff stat b) as [d|e]; [|reflexivity].
    apply IH.
Qed.

(** What an experiment returns when it returns. *)
Lemma experiment_unfold
  (stat : DataFrame -> string -> outcome f64) (df : DataFrame) (n : nat) (s : rng) :
  experiment stat df n s
  = match stat df "control"%string with
    | Raise e => Raise e
    | Ok c =>
        match stat df "experiment"%string with
        | Raise e => Raise e
        | Ok x =>
            match bootstrap stat df n s with
            | Raise e => Raise e
            | Ok (diffs, s1) =>
                match null_vals diffs s1 with
                | Raise e => Raise e
                | Ok (nulls, s2) => Ok (p_value nulls (fsub x c), s2)
                end
            end
        end
    end.
Proof.
  unfold experiment, bind, lift, ret.
  destruct (stat df "control"%string); [|reflexivity].
  destruct (stat df "experiment"%string); [|reflexivity].
  destruct (bootstrap stat df n s) as [[diffs s1]|]; [|reflexivity].
  now destruct (null_vals diffs s1) as [[nulls s2]|].
Qed.




End ExperimentFacts.

(** X12: A ratio-of-uniques experiment on a table where one of the two groups has
    no user with the baseline action raises the division error when it
    computes the observed difference, before anything is drawn: whatever the
    random state and the number of rounds. *)
Theorem experiment_ctr_needs_baseline
  (N : Numpy) (target baseline : string) (df : DataFrame) (n : nat) (s : rng) :
  uniqueUsers df "control" baseline = 0%nat
  \/ uniqueUsers df "experiment" baseline = 0%nat ->
  experiment (ctr target baseline) df n s = Raise ZeroDivisionError.
Proof.
  intro H. rewrite experiment_unfold.
  destruct (ctr_ok_or_zero_division target baseline df "control") as [[c Hc]|Hc];
    rewrite Hc; [|reflexivity].
  destruct H as [H|H].
  - rewrite (ctr_without_baseline target baseline df "control" H) in Hc. discriminate.
  - now rewrite (ctr_without_baseline target baseline df "experiment" H).
Qed.

Lemma experiment_ctr_needs_baseline_witness :
  experiment (N := Lcg.numpy) (ctr "click" "view")
    [row 1 "experiment" "view"; row 1 "experiment" "click"] 3 7%Z
  = Raise ZeroDivisionError.
Proof.
  apply (experiment_ctr_needs_baseline Lcg.numpy "click" "view"
           [row 1 "experiment" "view"; row 1 "experiment" "click"] 3 7%Z).
  left. reflexivity.
Defined.






(** X15: Rounds extend a run: the first [n] differences of a bootstrap of [n + m]
    rounds are the differences of the bootstrap of [n] rounds from the same
    state, and a bootstrap of [n] rounds that raises makes the longer one
    raise the same error. *)
Theorem bootstrap_rounds_extend
  (N : Numpy) (stat : DataFrame -> string -> outcome f64) (df : DataFrame)
  (n m : nat) (s : rng) :
  (forall ds s',
      bootstrap stat df (n + m) s = Ok (ds, s') ->
      exists s1,
        bootstrap stat df n s = Ok (firstn n ds, s1)
        /\ bootstrap_loop stat df m (firstn n ds) s1 = Ok (ds, s'))
  /\ (forall e, bootstrap stat df n s = Raise e -> bootstrap stat df (n + m) s = Raise e).
Proof.
  unfold bootstrap. rewrite bootstrap_loop_add. split.
  - intros ds s' H.
    destruct (bootstrap_loop stat df n [] s) as [[d1 s1]|e] eqn:H1; [|discriminate].
    pose proof (bootstrap_loop_length stat df n _ _ _ _ H1) as Hlen.
    cbn [List.length Nat.add] in Hlen.
    destruct (bootstrap_loop_appends stat df m _ _ _ _ H) as (tail & -> & _).
    exists s1. rewrite <- Hlen at 1 2.
    rewrite firstn_app, Nat.sub_diag, firstn_all. cbn [firstn].
    rewrite app_nil_r. now split.
  - intros e ->. reflexivity.
Qed.



(** ** The spread of the sampling distribution *)

Lemma np_mean_finite (q : Q) (qs : list Q) :
  np_mean (map Fin (q :: qs))
  = fin (Qsum (q :: qs) / inject_Z (Z.of_nat (List.length (q :: qs)))).
Proof.
  unfold np_mean. rewrite fsum_finite, length_map. apply fdiv_fin_of_nat.
Qed.

Lemma squared_deviations_finite (m : Q) (qs : list Q) :
  map (fun x => let d := fsub x (Fin m) in fmul d d) (map Fin qs)
  = map Fin (map (fun q => Qred (Qred (q - m) * Qred (q - m))) qs).
Proof.
  rewrite !map_map. apply map_ext. reflexivity.
Qed.


Lemma Qsum_zero (qs : list Q) :
  Forall (fun q => q == 0) qs -> Qsum qs == 0.
Proof.
  induction 1 as [|q qs Hq _ IH]; cbn [Qsum fold_right]; [reflexivity|].
  unfold Qsum in IH. rewrite Hq, IH. ring.
Qed.



Lemma inject_Z_S_not_zero (k : nat) : ~ inject_Z (Z.of_nat (S k)) == 0.
Proof.
  change 0 with (inject_Z 0). rewrite inject_Z_injective. lia.
Qed.

Lemma np_var_finite (q0 : Q) (qs : list Q) :
  let m := Qred (Qsum (q0 :: qs) / inject_Z (Z.of_nat (List.length (q0 :: qs)))) in
  np_var (map Fin (q0 :: qs))
  = fin (Qsum (map (fun q => Qred (Qred (q - m) * Qred (q - m))) (q0 :: qs))
         / inject_Z (Z.of_nat (List.length (q0 :: qs)))).
Proof.
  intro m. unfold np_var. cbv zeta. rewrite np_mean_finite. unfold fin at 1.
  fold m. rewrite squared_deviations_finite.
  change (map (fun q => Qred (Qred (q - m) * Qred (q - m))) (q0 :: qs))
    with (Qred (Qred (q0 - m) * Qred (q0 - m))
          :: map (fun q => Qred (Qred (q - m) * Qred (q - m))) qs).
  rewrite np_mean_finite. cbn [List.length]. now rewrite length_map.
Qed.

Lemma np_var_all_zero (qs : list Q) :
  qs <> [] -> Forall (fun q => q == 0) qs -> np_var (map Fin qs) = Fin 0.
Proof.
  intros Hne Hc. destruct qs as [|q0 qs]; [congruence|].
  rewrite np_var_finite.
  set (m := Qred (Qsum (q0 :: qs) / inject_Z (Z.of_nat (List.length (q0 :: qs))))).
  set (sq := map (fun q => Qred (Qred (q - m) * Qred (q - m))) (q0 :: qs)).
  change (Fin 0) with (fin 0). apply fin_eq.
  assert (Hm : m == 0).
  { subst m. rewrite Qred_correct, (Qsum_zero _ Hc).
    field. apply inject_Z_S_not_zero. }
  assert (Hz : Qsum sq == 0).
  { apply Qsum_zero. subst sq. apply Forall_forall. intros x Hx.
    apply in_map_iff in Hx. destruct Hx as (q & <- & Hq).
    rewrite Forall_forall in Hc. rewrite !Qred_correct, Hm, (Hc q Hq). ring. }
  rewrite Hz. field. apply inject_Z_S_not_zero.
Qed.



(** ** A sampling distribution without spread *)

Lemma fmul_zero_finite (z : Q) : fmul (Fin 0) (Fin z) = Fin 0.
Proof.
  change (fin (0 * z) = fin 0). apply fin_eq. ring.
Qed.

Lemma p_value_constant_nulls (k : nat) (v obs_diff : f64) :
  p_value (repeat v (S k)) obs_diff = if fgt v obs_diff then Fin 1 else Fin 0.
Proof.
  cbn [repeat]. rewrite p_value_fraction.
  change (v :: repeat v k) with (repeat v (S k)).
  destruct (fgt v obs_diff) eqn:E.
  - rewrite filter_all, repeat_length; [apply fin_unit_ratio|].
    apply Forall_forall. intros x Hx. apply repeat_spec in Hx. now subst.
  - rewrite filter_none; [apply fin_zero_ratio|].
    apply Forall_forall. intros x Hx. apply repeat_spec in Hx. now subst.
Qed.

Section SpreadFacts.

Context {N : Numpy}.

Lemma standard_normals_scaled_by_zero (k : nat) (s : rng) :
  (forall s0, exists z, fst (standard_normal s0) = Fin z) ->
  map (fun z => fadd (Fin 0) (fmul (Fin 0) z)) (fst (standard_normals k s))
  = repeat (Fin 0) k.
Proof.
  intro Hfin. revert s. induction k as [|k IH]; intro s; cbn [standard_normals].
  - reflexivity.
  - destruct (Hfin s) as [z Hz].
    destruct (standard_normal s) as [z0 s1]. cbn [fst] in Hz. subst z0.
    specialize (IH s1). destruct (standard_normals k s1) as [rest s2].
    cbn [fst map repeat] in *. now rewrite IH, fmul_zero_finite.
Qed.

End SpreadFacts.

(** X18: When all the bootstrap differences are 0 (the metric is the same in both
    groups of every bootstrap sample), the standard deviation is 0, every
    null value is 0, and the p-value is 1 for a negative observed difference
    and 0 otherwise: an observed difference of exactly 0 gets the p-value 0,
    because the comparison with the null values is strict. *)
Theorem null_vals_without_spread
  (N : Numpy) (qs : list Q) (s : rng) (obs_diff : f64) :
  np_sqrt (Fin 0) = Fin 0 ->
  (forall s0, exists z, fst (standard_normal s0) = Fin z) ->
  qs <> [] ->
  Forall (fun q => q == 0) qs ->
  exists s',
    null_vals (map Fin qs) s = Ok (repeat (Fin 0) (List.length qs), s')
    /\ p_value (repeat (Fin 0) (List.length qs)) obs_diff
       = if flt obs_diff (Fin 0) then Fin 1 else Fin 0.
Proof.
  intros Hsqrt Hfin Hne Hc. rewrite null_vals_unfold. unfold np_std.
  rewrite (np_var_all_zero qs Hne Hc), Hsqrt.
  change (flt (Fin 0) (Fin 0)) with false. cbv iota. rewrite length_map.
  rewrite standard_normals_scaled_by_zero by exact Hfin.
  eexists. split; [reflexivity|].
  destruct qs as [|q qs]; [congruence|]. cbn [List.length].
  apply p_value_constant_nulls.
Qed.

Lemma null_vals_without_spread_witness :
  exists s',
    null_vals (N := Lcg.numpy) (map Fin [0; 0 # 3; 0]) 9%Z
    = Ok (repeat (Fin 0) 3, s')
    /\ p_value (repeat (Fin 0) 3) (Fin 0) = if flt (Fin 0) (Fin 0) then Fin 1 else Fin 0.
Proof.
  apply (null_vals_without_spread Lcg.numpy [0; 0 # 3; 0] 9%Z (Fin 0)).
  - reflexivity.
  - intro s0. eexists. reflexivity.
  - discriminate.
  - repeat constructor.
Defined.

(** ** Reading times per user *)

Lemma key_compare_eq (k k' : Z * string) : key_compare k k' = Eq -> k = k'.
Proof.
  destruct k as [a s], k' as [b t]. unfold key_compare. cbn [fst snd].
  destruct (Z.compare_spec a b) as [->| |]; try discriminate.
  destruct (String_as_OT.compare_spec s t) as [->| |]; try discriminate.
  reflexivity.
Qed.

Lemma key_compare_gt (k k' : Z * string) :
  key_compare k k' = Gt -> key_compare k' k = Lt.
Proof.
  destruct k as [a s], k' as [b t]. unfold key_compare. cbn [fst snd].
  destruct (Z.compare_spec a b) as [->| |]; try discriminate.
  - rewrite Z.compare_refl.
    destruct (String_as_OT.compare_spec s t) as [| |H]; try discriminate.
    intros _. exact H.
  - intros _. now rewrite (proj2 (Z.compare_lt_iff b a)).
Qed.

Lemma key_lt_irrefl (k : Z * string) : key_compare k k <> Lt.
Proof.
  destruct k as [a s]. unfold key_compare. cbn [fst snd]. rewrite Z.compare_refl.
  intro H. exact (StrictOrder_Irreflexive (R := String_as_OT.lt) s H).
Qed.

Lemma key_lt_trans (k1 k2 k3 : Z * string) :
  key_compare k1 k2 = Lt -> key_compare k2 k3 = Lt -> key_compare k1 k3 = Lt.
Proof.
  destruct k1 as [a s], k2 as [b t], k3 as [c u]. unfold key_compare. cbn [fst snd].
  destruct (Z.compare_spec a b) as [Hab|Hab|Hab],
           (Z.compare_spec b c) as [Hbc|Hbc|Hbc],
           (Z.compare_spec a c) as [Hac|Hac|Hac];
    intros H1 H2; try discriminate; try reflexivity; try (exfalso; lia).
  exact (StrictOrder_Transitive (R := String_as_OT.lt) s t u H1 H2).
Qed.

Lemma insert_key_in (k x : Z * string) (keys : list (Z * string)) :
  In x (insert_key k keys) <-> x = k \/ In x keys.
Proof.
  induction keys as [|k' rest IH]; cbn [insert_key].
  - cbn [In]. intuition.
  - destruct (key_compare k k') eqn:E.
    + apply key_compare_eq in E. subst k'. cbn [In]. intuition.
    + cbn [In]. intuition.
    + cbn [In]. rewrite IH. intuition.
Qed.

Lemma insert_key_sorted (k : Z * string) (keys : list (Z * string)) :
  StronglySorted (fun k1 k2 => key_compare k1 k2 = Lt) keys ->
  StronglySorted (fun k1 k2 => key_compare k1 k2 = Lt) (insert_key k keys).
Proof.
  induction 1 as [|k' rest Hs IH Hall]; cbn [insert_key].
  - repeat constructor.
  - destruct (key_compare k k') eqn:E.
    + now constructor.
    + constructor; [now constructor|]. constructor; [exact E|].
      eapply Forall_impl; [|exact Hall]. intros x Hx. now apply key_lt_trans with k'.
    + constructor; [exact IH|]. apply Forall_forall. intros x Hx.
      apply insert_key_in in Hx. destruct Hx as [->|Hx].
      * now apply key_compare_gt.
      * rewrite Forall_forall in Hall. now apply Hall.
Qed.

Lemma group_keys_in (rows : DataFrame) (k : Z * string) :
  In k (group_keys rows) <-> In k (map key_of rows).
Proof.
  unfold group_keys. induction (map key_of rows) as [|k' l IH]; cbn [fold_right].
  - reflexivity.
  - rewrite insert_key_in, IH. cbn [In]. intuition.
Qed.

Lemma group_keys_sorted (rows : DataFrame) :
  StronglySorted (fun k1 k2 => key_compare k1 k2 = Lt) (group_keys rows).
Proof.
  unfold group_keys. induction (map key_of rows) as [|k' l IH]; cbn [fold_right].
  - constructor.
  - now apply insert_key_sorted.
Qed.

Lemma strictly_sorted_nodup (keys : list (Z * string)) :
  StronglySorted (fun k1 k2 => key_compare k1 k2 = Lt) keys -> NoDup keys.
Proof.
  induction 1 as [|k rest Hs IH Hall]; constructor; [|exact IH].
  intro Hin. rewrite Forall_forall in Hall. exact (key_lt_irrefl k (Hall k Hin)).
Qed.

Lemma reading_times_keys (df : DataFrame) :
  map fst (reading_times df) = group_keys (query (action_is "view") df).
Proof.
  unfold reading_times. cbv zeta. rewrite map_map. cbn [fst]. apply map_id.
Qed.

Lemma has_key_iff (k : Z * string) (r : Row) : has_key k r = true <-> key_of r = k.
Proof.
  destruct k as [a s]. unfold has_key, key_of. cbn [fst snd].
  rewrite andb_true_iff, Z.eqb_eq, String.eqb_eq. split.
  - now intros [-> ->].
  - intro H. now injection H.
Qed.

(** X19: Cell 23.  The table of reading times has one row per (user, group) pair
    that has a view, in increasing order of user id and then group; the
    duration of a row is the mean duration of the views of that pair; and
    there are at most as many rows as views. *)
Theorem reading_times_one_row_per_key (df : DataFrame) :
  StronglySorted (fun k1 k2 => key_compare k1 k2 = Lt) (map fst (reading_times df))
  /\ NoDup (map fst (reading_times df))
  /\ (forall k,
        In k (map fst (reading_times df))
        <-> exists r, In r df /\ action r = "view"%string /\ key_of r = k)
  /\ (forall k v,
        In (k, v) (reading_times df) ->
        v = series_mean
              (map duration (filter (fun r => action_is "view" r && has_key k r) df)))
  /\ (List.length (reading_times df) <= List.length (query (action_is "view") df))%nat.
Proof.
  rewrite reading_times_keys.
  pose proof (group_keys_sorted (query (action_is "view") df)) as Hsorted.
  pose proof (strictly_sorted_nodup _ Hsorted) as Hnodup.
  split; [exact Hsorted|]. split; [exact Hnodup|]. split; [|split].
  - intro k. rewrite group_keys_in, in_map_iff. unfold query. split.
    + intros (r & Hk & Hr). apply filter_In in Hr. destruct Hr as [Hr Ha].
      apply String.eqb_eq in Ha. now exists r.
    + intros (r & Hr & Ha & Hk). exists r. split; [exact Hk|].
      apply filter_In. split; [exact Hr|]. now apply String.eqb_eq.
  - intros k v Hin. unfold reading_times in Hin. cbv zeta in Hin.
    apply in_map_iff in Hin. destruct Hin as (k' & Heq & _).
    injection Heq as -> <-. unfold query. now rewrite filter_filter.
  - rewrite <- (length_map fst), reading_times_keys, <- (length_map key_of).
    apply NoDup_incl_length; [exact Hnodup|].
    intros k Hk. now apply group_keys_in.
Qed.
